(** * gg-mcp: the client factory and the two release scripts

    A shallow embedding of
      - packages/gg_api_core/src/gg_api_core/utils.py  (get_gitguardian_client)
      - scripts/publish_to_pypi.py
      - scripts/publish_to_mcp_registry.py
    followed by the properties the specification states about them. *)

From Stdlib Require Import ZArith NArith Ascii String List Bool.
From Stdlib Require Import Floats.SpecFloat.
From stdpp Require Import base option gmap strings.

Local Open Scope string_scope.
Local Open Scope list_scope.

(** ** Python builtins the sources rely on *)

Module Py.

(** [str.lower] and [str.strip] on the ASCII range: strings are byte
    strings here, letters outside A-Z are left alone. *)
Definition lower_char (c : ascii) : ascii :=
  let n := N_of_ascii c in
  if ((65 <=? n) && (n <=? 90))%N then ascii_of_N (n + 32) else c.

Fixpoint lower (s : string) : string :=
  match s with
  | EmptyString => EmptyString
  | String c r => String (lower_char c) (lower r)
  end.

(** The characters [str.strip] removes: tab, line feed, vertical tab, form
    feed, carriage return, the four separators 0x1c-0x1f and the space. *)
Definition isspace (c : ascii) : bool :=
  let n := N_of_ascii c in
  (((9 <=? n) && (n <=? 13)) || ((28 <=? n) && (n <=? 32)))%N.

Fixpoint lstrip (s : string) : string :=
  match s with
  | EmptyString => EmptyString
  | String c r => if isspace c then lstrip r else s
  end.

Fixpoint rstrip (s : string) : string :=
  match s with
  | EmptyString => EmptyString
  | String c r =>
      match rstrip r with
      | EmptyString => if isspace c then EmptyString else String c EmptyString
      | r' => String c r'
      end
  end.

Definition strip (s : string) : string := rstrip (lstrip s).

(** An exception object, of a class below [Exception]: the name of its class
    and [str(e)]. *)
Record exception := Exception { exc_class : string; exc_msg : string }.

Definition ValueError (msg : string) : exception := Exception "ValueError" msg.
Definition TypeError (msg : string) : exception := Exception "TypeError" msg.
Definition KeyError (msg : string) : exception := Exception "KeyError" msg.
Definition IndexError (msg : string) : exception := Exception "IndexError" msg.
Definition AttributeError (msg : string) : exception :=
  Exception "AttributeError" msg.

(** The outcome of a call: an exception raised, or a value returned. *)
Definition result (A : Type) : Type := exception + A.

(** Truth value of an optional string ([None] and [""] are false). *)
Definition truthy_str (o : option string) : bool :=
  match o with
  | Some (String _ _) => true
  | _ => false
  end.

(** [s[:n]] for a non-negative [n]. *)
Fixpoint take_prefix (n : nat) (s : string) : string :=
  match n, s with
  | S k, String c r => String c (take_prefix k r)
  | _, _ => EmptyString
  end.

End Py.

Import Py.

(** ** gg_api_core/utils.py *)

Module Utils.

(** Modelled from the spec: the class [GitGuardianClient] lives in
    gg_api_core/client.py, which is not among the sources.  The spec treats it
    as an opaque collaborator whose constructor may fail; an instance is
    represented by the arguments it was built from ([use_oauth] is [None] when
    the argument is left to its default) and the [server_name] attribute the
    factory assigns afterwards. *)
Record GitGuardianClient := Client {
  api_key : option string;
  api_url : option string;
  use_oauth : option bool;
  server_name : option (option string)
}.

(** Log records emitted through the module's logger. *)
Inductive level := DEBUG | ERROR | EXCEPTION.
Definition log := list (level * string).

Section Factory.

(** Modelled from the spec: the constructor's own failures ("any exception
    from the underlying client constructor propagates unchanged").
    [init_raises k u o] is the exception [GitGuardianClient(api_key=k,
    api_url=u, use_oauth=o)] raises, if any. *)
Variable init_raises :
  option string -> option string -> option bool -> option exception.

Definition new_client (k u : option string) (o : option bool)
  : result GitGuardianClient :=
  match init_raises k u o with
  | Some e => inl e
  | None => inr (Client k u o None)
  end.

(** [client.server_name = server_name] *)
Definition set_server_name (c : GitGuardianClient) (n : option string)
  : GitGuardianClient :=
  Client (api_key c) (api_url c) (use_oauth c) (Some n).

(** [auth_method = os.environ.get("GITGUARDIAN_AUTH_METHOD", "web").lower()] *)
Definition auth_method (environ : gmap string string) : string :=
  lower (default "web" (environ !! "GITGUARDIAN_AUTH_METHOD")).

(** [api_key[:4] + "..." if len(api_key) > 4 else "***"] *)
Definition key_preview (k : string) : string :=
  if (4 <? String.length k)%nat then take_prefix 4 k +:+ "..." else "***".

Definition log_api_url (u : option string) : log :=
  match u with
  | Some (String _ _ as v) =>
      [(DEBUG, "GITGUARDIAN_API_URL environment variable is set: " +:+ v)]
  | _ => [(DEBUG, "GITGUARDIAN_API_URL not set, will use default")]
  end.

Definition missing_key_msg : string :=
  "GITGUARDIAN_API_KEY environment variable must be set for token authentication".

Definition unsupported_msg (m : string) : string :=
  "Unsupported authentication method: " +:+ m
    +:+ ". Supported methods: 'token', 'web'".

(** [get_gitguardian_client(server_name)]: the log it writes and its
    outcome, from the process environment. *)
Definition get_gitguardian_client
    (environ : gmap string string) (name : option string)
  : log * result GitGuardianClient :=
  let l0 := [(DEBUG, "Attempting to initialize GitGuardian client")] in
  let m := auth_method environ in
  let u := environ !! "GITGUARDIAN_API_URL" in
  let l1 := l0 ++ log_api_url u in
  if m =? "token" then
    let k := environ !! "GITGUARDIAN_API_KEY" in
    if truthy_str k then
      let l2 := l1 ++
        [(DEBUG, "GITGUARDIAN_API_KEY environment variable is set");
         (DEBUG, "API key starts with: " +:+ key_preview (default "" k))] in
      match new_client k u None with
      | inr client =>
          (l2 ++ [(DEBUG,
                   "GitGuardian client initialized using token authentication")],
           inr (set_server_name client name))
      | inl e =>
          (l2 ++ [(EXCEPTION,
                   "Failed to initialize GitGuardian client with token auth: "
                     +:+ exc_msg e)],
           inl e)
      end
    else
      (l1 ++ [(ERROR, "GITGUARDIAN_API_KEY environment variable is not set")],
       inl (ValueError missing_key_msg))
  else if m =? "web" then
    let l2 := l1 ++ [(DEBUG, "Using web-based OAuth authentication")] in
    match new_client None u (Some true) with
    | inr client =>
        (l2 ++ [(DEBUG,
                 "GitGuardian client initialized using OAuth authentication")],
         inr (set_server_name client name))
    | inl e =>
        (l2 ++ [(EXCEPTION,
                 "Failed to initialize GitGuardian client with OAuth auth: "
                   +:+ exc_msg e)],
         inl e)
    end
  else
    (l1 ++ [(ERROR, "Unsupported authentication method: " +:+ m)],
     inl (ValueError (unsupported_msg m))).

End Factory.

End Utils.

(** ** The scripts' surroundings

    What the release scripts touch outside themselves: the command line, the
    process environment, the terminal, the file system and the programs they
    launch.  [print] only writes to the terminal and is left out.  Starting a
    program and reading server.json can raise; [input], [os.chdir] and
    [shutil.rmtree] are taken to return. *)

Module Proc.

#[local] Set Warnings "-register-all".

(** Values [json.load] produces. A [dict] is kept as its item list, looked up
    from the front. *)
Inductive value :=
| VNone
| VBool (b : bool)
| VInt (n : Z)
| VFloat (f : spec_float)
| VStr (s : string)
| VList (l : list value)
| VDict (d : list (string * value)).

(** What a run leaves behind, oldest first. *)
Inductive event :=
| EvChdir
| EvRmtree (path : string)
| EvInput (prompt answer : string)
| EvSpawnFailed (cmd : list string)
| EvRun (cmd : list string) (env : option (gmap string string)) (rc : Z).

Definition trace := list event.

(** The surroundings answer from what has happened so far. *)
Record World := {
  (** [sys.argv] *)
  argv : list string;
  (** [os.environ] *)
  environ : gmap string string;
  (** [subprocess.run]: the exception when the program cannot be started,
      else return code, stdout and stderr *)
  subprocess_run :
    trace -> list string -> option (gmap string string)
    -> result (Z * string * string);
  (** the line [input] reads *)
  stdin_line : trace -> string -> string;
  (** [Path(p).exists()] *)
  path_exists : trace -> string -> bool;
  (** [open(p)] followed by [json.load] *)
  json_load : trace -> string -> result value;
  (** [str(v)] of a loaded value, as an f-string renders it *)
  py_str : value -> string
}.

(** A script step: it reads the world, extends the trace, and raises or
    returns. *)
Definition M (A : Type) : Type := World -> trace -> result A * trace.

Definition ret {A} (a : A) : M A := fun _ t => (inr a, t).

Definition bind {A B} (m : M A) (k : A -> M B) : M B :=
  fun w t =>
    match m w t with
    | (inr a, t') => k a w t'
    | (inl e, t') => (inl e, t')
    end.

(** [try: body except Exception as e: handler e] *)
Definition try_except {A} (body : M A) (handler : exception -> M A) : M A :=
  fun w t =>
    match body w t with
    | (inl e, t') => handler e w t'
    | r => r
    end.

Definition lift {A} (r : result A) : M A := fun _ t => (r, t).

Definition ask {A} (f : World -> A) : M A := fun w t => (inr (f w), t).

Definition emit (e : event) : M unit := fun _ t => (inr tt, t ++ [e]).

(** [subprocess.run(cmd, env=env, ...)] *)
Definition run (cmd : list string) (env : option (gmap string string))
  : M (Z * string * string) :=
  fun w t =>
    match subprocess_run w t cmd env with
    | inl e => (inl e, t ++ [EvSpawnFailed cmd])
    | inr (rc, out, err) => (inr (rc, out, err), t ++ [EvRun cmd env rc])
    end.

(** [input(prompt)] *)
Definition input (prompt : string) : M string :=
  fun w t => let a := stdin_line w t prompt in (inr a, t ++ [EvInput prompt a]).

(** [Path(p).exists()] *)
Definition exists_ (p : string) : M bool :=
  fun w t => (inr (path_exists w t p), t).

(** [with open(p) as f: json.load(f)] *)
Definition load (p : string) : M value :=
  fun w t => (json_load w t p, t).

(** [os.chdir(project_root)] *)
Definition chdir : M unit := emit EvChdir.

(** [shutil.rmtree(p)] *)
Definition rmtree (p : string) : M unit := emit (EvRmtree p).

(** [x in sys.argv] *)
Definition in_argv (x : string) : M bool :=
  ask (fun w => existsb (String.eqb x) (argv w)).

(** [sys.exit(main())]: the process status. An exception nobody caught ends
    the interpreter with status 1. *)
Definition exit_status (main : M Z) (w : World) : Z * trace :=
  match main w [] with
  | (inr code, t) => (code, t)
  | (inl _, t) => (1%Z, t)
  end.

Declare Scope proc_scope.
Delimit Scope proc_scope with proc.
Notation "'do' x <- m ; k" := (bind m (fun x => k))
  (at level 10, x name, m at level 100, k at level 200) : proc_scope.
Notation "'do' ' p <- m ; k" := (bind m (fun x => match x with p => k end))
  (at level 10, p pattern, m at level 100, k at level 200) : proc_scope.

End Proc.

Import Proc.
Local Open Scope proc_scope.

(** ** Operations on loaded JSON values

    The messages of exceptions the interpreter raises differ between Python
    versions and are never inspected; they are left empty. *)

Module Json.

Definition lookup_item (k : string) (d : list (string * value)) : option value :=
  snd <$> find (fun kv => String.eqb k (fst kv)) d.

Definition is_str (s : string) (v : value) : bool :=
  match v with
  | VStr s' => String.eqb s' s
  | _ => false
  end.

(** [a in s] for two strings. *)
Fixpoint is_substring (a s : string) : bool :=
  String.prefix a s ||
  match s with
  | EmptyString => false
  | String _ r => is_substring a r
  end.

(** [bool(v)] *)
Definition truthy (v : value) : bool :=
  match v with
  | VNone => false
  | VBool b => b
  | VInt n => negb (n =? 0)%Z
  | VFloat (S754_zero _) => false
  | VFloat _ => true
  | VStr s => negb (String.eqb s "")
  | VList l => match l with [] => false | _ => true end
  | VDict d => match d with [] => false | _ => true end
  end.

(** [field in config] *)
Definition contains (field : string) (config : value) : result bool :=
  match config with
  | VDict d => inr (bool_decide (is_Some (lookup_item field d)))
  | VList l => inr (existsb (is_str field) l)
  | VStr s => inr (is_substring field s)
  | _ => inl (TypeError "")
  end.

(** [config[key]] for a string key *)
Definition getitem (config : value) (key : string) : result value :=
  match config with
  | VDict d =>
      match lookup_item key d with
      | Some v => inr v
      | None => inl (KeyError key)
      end
  | _ => inl (TypeError "")
  end.

(** [xs[0]] *)
Definition first (xs : value) : result value :=
  match xs with
  | VList (x :: _) => inr x
  | VList [] => inl (IndexError "")
  | VStr (String c _) => inr (VStr (String c EmptyString))
  | VStr EmptyString => inl (IndexError "")
  | VDict _ => inl (KeyError "0")
  | _ => inl (TypeError "")
  end.

(** [obj.get(key)] *)
Definition get (obj : value) (key : string) : result value :=
  match obj with
  | VDict d => inr (default VNone (lookup_item key d))
  | _ => inl (AttributeError "")
  end.

End Json.

Import Json.

Definition nl : string := String "010"%char EmptyString.

(** ** scripts/publish_to_pypi.py *)

Module PublishToPypi.

Definition run_command (cmd : list string) : M (Z * string * string) :=
  run cmd None.

Definition check_prerequisites : M bool :=
  do '(returncode, _, _) <- run_command ["which"; "uv"];
  if negb (returncode =? 0)%Z then ret false
  else ret true.

Definition clean_dist : M unit :=
  do present <- exists_ "dist";
  if present then rmtree "dist" else ret tt.

Definition build_package : M bool :=
  do '(returncode, _, _) <- run_command ["uv"; "build"];
  if negb (returncode =? 0)%Z then ret false
  else
    (* the listing of dist/ is printed only *)
    do _ <- exists_ "dist";
    ret true.

Definition target (test : bool) : string := if test then "TestPyPI" else "PyPI".

Definition upload_cmd (test : bool) : list string :=
  ["uv"; "run"; "twine"; "upload"]
    ++ (if test then ["--repository"; "testpypi"] else [])
    ++ ["dist/*"].

(** the part of [upload_to_pypi] that follows the token lookup *)
Definition upload_with (test : bool) (token : string) : M bool :=
  do base <- ask environ;
  let env := <["TWINE_PASSWORD" := token]>
               (<["TWINE_USERNAME" := "__token__"]> base) in
  do '(returncode, _, _) <- run (upload_cmd test) (Some env);
  if negb (returncode =? 0)%Z then ret false
  else ret true.

Definition upload_to_pypi (test : bool) : M bool :=
  do token <- ask (fun w =>
    environ w !! (if negb test then "PYPI_TOKEN" else "TEST_PYPI_TOKEN"));
  if negb (truthy_str token) then
    do answer <- input ("Enter your " +:+ target test +:+ " API token: ");
    let token := strip answer in
    if negb (truthy_str (Some token)) then ret false
    else upload_with test token
  else upload_with test (default "" token).

Definition main : M Z :=
  do a <- in_argv "--test";
  do b <- in_argv "-t";
  let test_mode := a || b in
  do ok <- check_prerequisites;
  if negb ok then ret 1%Z
  else
    do _ <- chdir;
    do _ <- clean_dist;
    do ok <- build_package;
    if negb ok then ret 1%Z
    else
      do answer <- input "Continue? [y/N]: ";
      let response := lower (strip answer) in
      if negb (response =? "y") then ret 0%Z
      else
        do ok <- upload_to_pypi test_mode;
        if negb ok then ret 1%Z
        else ret 0%Z.

End PublishToPypi.

(** ** scripts/publish_to_mcp_registry.py *)

Module PublishToMcpRegistry.

(** Without [capture] the child writes to the terminal and both strings come
    back empty. *)
Definition run_command (cmd : list string) (capture : bool)
  : M (Z * string * string) :=
  do '(returncode, stdout, stderr) <- run cmd None;
  if capture then ret (returncode, stdout, stderr)
  else ret (returncode, "", "").

Definition check_prerequisites : M bool :=
  do '(returncode, _, _) <- run_command ["which"; "mcp-publisher"] true;
  if negb (returncode =? 0)%Z then ret false
  else
    (* the version is printed only *)
    do '(_, _, _) <- run_command ["mcp-publisher"; "--version"] true;
    do present <- exists_ "server.json";
    if negb present then ret false
    else ret true.

Definition required_fields : list string :=
  ["name"; "description"; "version"; "packages"].

(** The loop over [required_fields]: the first field that is not in
    [config], if there is one. *)
Fixpoint first_missing (fields : list string) (config : value)
  : result (option string) :=
  match fields with
  | [] => inr None
  | field :: rest =>
      match contains field config with
      | inl e => inl e
      | inr false => inr (Some field)
      | inr true => first_missing rest config
      end
  end.

Definition probe_cmd (identifier : string) : list string :=
  ["curl"; "-s"; "-o"; "/dev/null"; "-w"; "%{http_code}";
   "https://pypi.org/pypi/" +:+ identifier +:+ "/json"].

Definition validate_server_json : M bool :=
  try_except
    (do config <- load "server.json";
     do missing <- lift (first_missing required_fields config);
     match missing with
     | Some _ => ret false
     | None =>
         (* the three values are printed *)
         do _ <- lift (getitem config "name");
         do _ <- lift (getitem config "description");
         do _ <- lift (getitem config "version");
         do packages <- lift (get config "packages");
         if truthy packages then
           do packages <- lift (getitem config "packages");
           do package <- lift (first packages);
           do _ <- lift (get package "registryType");
           do _ <- lift (get package "identifier");
           do _ <- lift (get package "version");
           do registry <- lift (get package "registryType");
           if is_str "pypi" registry then
             do identifier <- lift (get package "identifier");
             do shown <- ask (fun w => py_str w identifier);
             do '(_, _, _) <- run_command (probe_cmd shown) true;
             ret true
           else ret true
         else ret true
     end)
    (fun e =>
       if exc_class e =? "JSONDecodeError" then ret false
       else ret false).

Definition check_github_auth : M bool := ret true.

Definition login_github : M bool :=
  do answer <- input "Continue with GitHub login? [y/N]: ";
  let response := lower (strip answer) in
  if negb (response =? "y") then ret false
  else
    do '(returncode, _, _) <-
      run_command ["mcp-publisher"; "login"; "github"] false;
    if negb (returncode =? 0)%Z then ret false
    else ret true.

Definition publish_to_registry (dry_run : bool) : M bool :=
  if dry_run then ret true
  else
    do '(returncode, _, _) <- run_command ["mcp-publisher"; "publish"] false;
    if negb (returncode =? 0)%Z then ret false
    else ret true.

(** the part of [main] after the confirmation *)
Definition proceed (dry_run : bool) : M Z :=
  do _ <- (if negb dry_run then login_github else ret true);
  do ok <- publish_to_registry dry_run;
  if negb ok then ret 1%Z
  else ret 0%Z.

Definition main : M Z :=
  do a <- in_argv "--dry-run";
  do b <- in_argv "-d";
  let dry_run := a || b in
  do _ <- chdir;
  do ok <- check_prerequisites;
  if negb ok then ret 1%Z
  else
    do ok <- validate_server_json;
    if negb ok then ret 1%Z
    else
      do ok <- check_github_auth;
      if negb ok then ret 1%Z
      else
        if negb dry_run then
          do answer <- input (nl +:+ "Continue with publication? [y/N]: ");
          let response := lower (strip answer) in
          if negb (response =? "y") then ret 0%Z
          else proceed dry_run
        else proceed dry_run.

End PublishToMcpRegistry.

(** * Observations on runs

    The vocabulary the properties below are stated in. *)

Module Obs.

(** [wp m w t Φ]: running [m] in world [w] after trace [t] ends in an
    outcome and a trace that satisfy [Φ]. *)
Definition wp {A} (m : M A) (w : World) (t : trace)
    (Φ : result A → trace → Prop) : Prop :=
  Φ (m w t).1 (m w t).2.

(** The process status of a script and the trace it leaves. *)
Definition status (main : M Z) (w : World) : Z := (exit_status main w).1.

Definition history (main : M Z) (w : World) : trace := (exit_status main w).2.

(** The command an event started, or tried to start. *)
Definition event_cmd (e : event) : option (list string) :=
  match e with
  | EvRun c _ _ | EvSpawnFailed c => Some c
  | _ => None
  end.

(** [invoked cmd t]: somewhere in [t] the script launched [cmd]. *)
Definition invoked (cmd : list string) (t : trace) : Prop :=
  ∃ e, e ∈ t ∧ event_cmd e = Some cmd.

(** [x in sys.argv] for one of two spellings of a flag. *)
Definition flag_given (long short : string) (w : World) : Prop :=
  long ∈ argv w ∨ short ∈ argv w.

(** The confirmation prompts of the two scripts. *)
Definition confirm_upload : string := "Continue? [y/N]: ".

Definition confirm_publish : string :=
  nl +:+ "Continue with publication? [y/N]: ".

(** The commands publish_to_mcp_registry launches. *)
Definition which_cmd : list string := ["which"; "mcp-publisher"].

Definition version_cmd : list string := ["mcp-publisher"; "--version"].

Definition login_cmd : list string := ["mcp-publisher"; "login"; "github"].

Definition publish_cmd : list string := ["mcp-publisher"; "publish"].


(** What the checks of [validate_server_json] come to, before any program
    is launched: the manifest is turned down, passes as it is, or passes
    once the probe for [identifier] has been launched. *)
Inductive verdict := Reject | Accept | Probe (identifier : value).

Definition has_field (d : list (string * value)) (field : string) : bool :=
  bool_decide (is_Some (lookup_item field d)).

Definition manifest_verdict (loaded : result value) : verdict :=
  match loaded with
  | inr (VDict d) =>
      if forallb (has_field d) PublishToMcpRegistry.required_fields then
        match default VNone (lookup_item "packages" d) with
        | VList (VDict p :: _) =>
            if is_str "pypi" (default VNone (lookup_item "registryType" p))
            then Probe (default VNone (lookup_item "identifier" p))
            else Accept
        | packages => if truthy packages then Reject else Accept
        end
      else Reject
  | _ => Reject
  end.

(** The programs a run launched, in order. *)
Definition launched (t : trace) : list (list string) := omap event_cmd t.

(** A record of the factory's log that reports a failure. *)
Definition reports_failure (r : Utils.level * string) : Prop :=
  r.1 = Utils.ERROR ∨ r.1 = Utils.EXCEPTION.


(** The environment variable [upload_to_pypi] reads the token from, the
    prompt it falls back to, and the environment it hands to twine. *)
Definition token_var (test : bool) : string :=
  if negb test then "PYPI_TOKEN" else "TEST_PYPI_TOKEN".

Definition token_prompt (test : bool) : string :=
  "Enter your " +:+ PublishToPypi.target test +:+ " API token: ".



(** A manifest object whose packages list starts with [entry]: the items
    before and after the packages field, and the entries after the first. *)
Definition manifest_with
    (before after : list (string * value)) (entry : value) (others : list value)
  : value :=
  VDict (before ++ ("packages", VList (entry :: others)) :: after).

End Obs.

Import Obs.

(** * Sample inputs *)

Module Samples.

(** A constructor that never fails. *)
Definition init_ok
  : option string → option string → option bool → option exception :=
  fun _ _ _ => None.

(** A constructor that always fails. *)
Definition init_refuses
  : option string → option string → option bool → option exception :=
  fun _ _ _ => Some (Exception "ConnectionError" "unreachable").

(** An environment selecting token authentication with an empty key. *)
Definition env_empty_key : gmap string string :=
  <["GITGUARDIAN_API_KEY" := ""]> (<["GITGUARDIAN_AUTH_METHOD" := "token"]> ∅).

Definition env_token : gmap string string :=
  <["GITGUARDIAN_API_KEY" := "ggtt-v-12345"]>
    (<["GITGUARDIAN_AUTH_METHOD" := "token"]> ∅).


(** [str] on the values the manifests below hold. *)
Definition show (v : value) : string :=
  match v with
  | VStr s => s
  | VNone => "None"
  | VBool true => "True"
  | VBool false => "False"
  | _ => ""
  end.

(** A world in which every program starts and returns [rc_of cmd], every
    path exists, the operator types [answer prompt] and server.json loads to
    [manifest]. *)
Definition scripted (args : list string) (env : gmap string string)
    (rc_of : list string → Z) (answer : string → string)
    (manifest : result value) : World :=
  {| argv := args;
     environ := env;
     subprocess_run := λ _ cmd _, inr (rc_of cmd, "", "");
     stdin_line := λ _ prompt, answer prompt;
     path_exists := λ _ _, true;
     json_load := λ _ _, manifest;
     py_str := show |}.

(** [rc] for the command [bad], 0 for every other one. *)
Definition fails_only (bad : list string) (rc : Z) (cmd : list string) : Z :=
  if bool_decide (cmd = bad) then rc else 0%Z.

Definition yes (_ : string) : string := "y".

Definition no_manifest : result value :=
  inl (Exception "FileNotFoundError" "server.json").

Definition package_items : list (string * value) :=
  [("registryType", VStr "pypi");
   ("identifier", VStr "gg-mcp");
   ("version", VStr "0.5.0")].

Definition package_entry : value := VDict package_items.

Definition manifest_ok : value :=
  VDict [("name", VStr "io.github.GitGuardian/gg-mcp");
         ("description", VStr "GitGuardian MCP server");
         ("version", VStr "0.5.0");
         ("packages", VList [package_entry])].


Definition world_test_upload_fails : World :=
  scripted ["scripts/publish_to_pypi.py"; "--test"]
    {["TEST_PYPI_TOKEN" := "pypi-test-token"]}
    (fails_only (PublishToPypi.upload_cmd true) 1) yes no_manifest.

Definition world_pypi_declined : World :=
  scripted ["scripts/publish_to_pypi.py"] ∅ (λ _, 0%Z) (λ _, " N ")
    no_manifest.

Definition world_pypi_build_fails : World :=
  scripted ["scripts/publish_to_pypi.py"] ∅
    (fails_only ["uv"; "build"] 2) yes no_manifest.

Definition world_login_fails : World :=
  scripted ["scripts/publish_to_mcp_registry.py"] ∅
    (fails_only login_cmd 1) yes (inr manifest_ok).



Definition world_dry_run : World :=
  scripted ["scripts/publish_to_mcp_registry.py"; "--dry-run"] ∅
    (λ _, 0%Z) yes (inr manifest_ok).





(** The items of [manifest_ok] before its packages field. *)
Definition manifest_head : list (string * value) :=
  [("name", VStr "io.github.GitGuardian/gg-mcp");
   ("description", VStr "GitGuardian MCP server");
   ("version", VStr "0.5.0")].

(** [manifest_ok] with a second, malformed package entry. *)
Definition world_two_packages : World :=
  scripted ["scripts/publish_to_mcp_registry.py"; "--dry-run"] ∅
    (λ _, 0%Z) yes
    (inr (manifest_with manifest_head [] package_entry [VStr "gg-mcp-extra"])).

(** No token in the environment, and an operator who confirms with "y" and
    then types blanks at the token prompt. *)
Definition world_blank_token : World :=
  scripted ["scripts/publish_to_pypi.py"] ∅ (λ _, 0%Z)
    (λ prompt, if prompt =? confirm_upload then "y" else "  ") no_manifest.

End Samples.

Import Samples.

(** * Properties *)

(** ** Facts about the builtins *)






Lemma truthy_str_Some (k : string) : k ≠ "" → truthy_str (Some k) = true.
Proof. destruct k; [congruence | reflexivity]. Qed.

(** ** Reasoning about script steps *)

Module Wp.

Section Rules.
Context {A B : Type} (w : World) (t : trace).

Lemma wp_ret (a : A) Φ : Φ (inr a) t → wp (ret a) w t Φ.
Proof. exact id. Qed.

Lemma wp_bind (m : M A) (k : A → M B) Φ :
  wp m w t (λ r t',
    match r with
    | inr a => wp (k a) w t' Φ
    | inl e => Φ (inl e) t'
    end) →
  wp (bind m k) w t Φ.
Proof.
  unfold wp, bind. destruct (m w t) as [[e|a] t']; simpl; exact id.
Qed.

Lemma wp_try_except (body : M A) handler Φ :
  wp body w t (λ r t',
    match r with
    | inl e => wp (handler e) w t' Φ
    | inr a => Φ (inr a) t'
    end) →
  wp (try_except body handler) w t Φ.
Proof.
  unfold wp, try_except. destruct (body w t) as [[e|a] t']; simpl; exact id.
Qed.

Lemma wp_lift (r : result A) Φ : Φ r t → wp (lift r) w t Φ.
Proof. exact id. Qed.

Lemma wp_ask (f : World → A) Φ : Φ (inr (f w)) t → wp (ask f) w t Φ.
Proof. exact id. Qed.

Lemma wp_if (b : bool) (m1 m2 : M A) Φ :
  (b = true → wp m1 w t Φ) → (b = false → wp m2 w t Φ) →
  wp (if b then m1 else m2) w t Φ.
Proof. destruct b; auto. Qed.

End Rules.

Section Effects.
Context (w : World) (t : trace).

Lemma wp_emit e Φ : Φ (inr tt) (t ++ [e]) → wp (emit e) w t Φ.
Proof. exact id. Qed.

Lemma wp_run cmd env Φ :
  (∀ e, subprocess_run w t cmd env = inl e →
        Φ (inl e) (t ++ [EvSpawnFailed cmd])) →
  (∀ rc out err, subprocess_run w t cmd env = inr (rc, out, err) →
        Φ (inr (rc, out, err)) (t ++ [EvRun cmd env rc])) →
  wp (run cmd env) w t Φ.
Proof.
  intros He Hr. unfold wp, run.
  destruct (subprocess_run w t cmd env) as [e|[[rc out] err]] eqn:E;
    simpl; auto.
Qed.

Lemma wp_input prompt Φ :
  (∀ a, Φ (inr a) (t ++ [EvInput prompt a])) → wp (input prompt) w t Φ.
Proof. intros H. apply H. Qed.

Lemma wp_exists p Φ : (∀ b, Φ (inr b) t) → wp (exists_ p) w t Φ.
Proof. intros H. apply H. Qed.

Lemma wp_load p Φ :
  (∀ r, json_load w t p = r → Φ r t) → wp (load p) w t Φ.
Proof. intros H. apply H. reflexivity. Qed.

Lemma wp_in_argv x Φ :
  Φ (inr (existsb (String.eqb x) (argv w))) t → wp (in_argv x) w t Φ.
Proof. exact id. Qed.

(** The process status, from the outcome of [main]. *)
Lemma wp_exit_status (main : M Z) (Ψ : Z → trace → Prop) code t' :
  exit_status main w = (code, t') →
  wp main w [] (λ r t',
    match r with
    | inr code => Ψ code t'
    | inl _ => Ψ 1%Z t'
    end) →
  Ψ code t'.
Proof.
  unfold wp, exit_status. destruct (main w []) as [[e|c] t''];
    intros [= <- <-]; exact id.
Qed.

End Effects.

Ltac wp_step :=
  lazymatch goal with
  | |- wp (bind _ _) _ _ _ => apply wp_bind
  | |- wp (ret _) _ _ _ => apply wp_ret
  | |- wp (lift _) _ _ _ => apply wp_lift
  | |- wp (ask _) _ _ _ => apply wp_ask
  | |- wp (in_argv _) _ _ _ => apply wp_in_argv
  | |- wp (emit _) _ _ _ => apply wp_emit
  | |- wp chdir _ _ _ => apply wp_emit
  | |- wp (rmtree _) _ _ _ => apply wp_emit
  | |- wp (input _) _ _ _ => apply wp_input; intros ?
  | |- wp (exists_ _) _ _ _ => apply wp_exists; intros ?
  | |- wp (load _) _ _ _ => apply wp_load; intros ? ?
  | |- wp (run _ _) _ _ _ =>
      apply wp_run; [intros ? ? | intros ? ? ? ?]
  | |- wp (try_except _ _) _ _ _ => apply wp_try_except
  | |- wp (if ?b then _ else _) _ _ _ =>
      first [ change b with true | change b with false
            | apply wp_if; intros ? | destruct b eqn:? ]
  | |- wp (match ?x with _ => _ end) _ _ _ => destruct x eqn:?
  | |- match ?x with _ => _ end => destruct x eqn:?
  end; cbv beta iota.

End Wp.

Import Wp.

(** ** The client factory *)

Module UtilsProps.
Import Utils.

Abbreviation AUTH := "GITGUARDIAN_AUTH_METHOD" (only parsing).
Abbreviation KEY := "GITGUARDIAN_API_KEY" (only parsing).
Abbreviation URL := "GITGUARDIAN_API_URL" (only parsing).

Section Claims.

Variable init_raises :
  option string → option string → option bool → option exception.

Abbreviation factory := (get_gitguardian_client init_raises).

Lemma token_branch env name :
  auth_method env = "token" →
  (factory env name).2 =
    if truthy_str (env !! KEY) then
      match new_client init_raises (env !! KEY) (env !! URL) None with
      | inr c => inr (set_server_name c name)
      | inl e => inl e
      end
    else inl (ValueError missing_key_msg).
Proof.
  intros Hm. unfold get_gitguardian_client. rewrite Hm. simpl.
  destruct (truthy_str (env !! KEY)); [|reflexivity].
  destruct (new_client _ _ _ _); reflexivity.
Qed.

Lemma web_branch env name :
  auth_method env = "web" →
  (factory env name).2 =
    match new_client init_raises None (env !! URL) (Some true) with
    | inr c => inr (set_server_name c name)
    | inl e => inl e
    end.
Proof.
  intros Hm. unfold get_gitguardian_client. rewrite Hm. simpl.
  destruct (new_client _ _ _ _); reflexivity.
Qed.


(** The whole behaviour is a function of the lowered selector, the key and
    the URL. *)
Lemma factory_ext env env' name :
  auth_method env = auth_method env' →
  env !! KEY = env' !! KEY →
  env !! URL = env' !! URL →
  factory env name = factory env' name.
Proof.
  intros Hm Hk Hu. unfold get_gitguardian_client.
  rewrite Hm, Hk, Hu. reflexivity.
Qed.


(** C1 (as amended). With the selector "token": when GITGUARDIAN_API_KEY is
    absent the factory raises the ValueError about the missing key, for any
    server name; when the key is present, not empty, and the constructor
    does not fail, it returns the client built from that key (no OAuth
    flag passed) with the server name attached. *)
Theorem token_auth_outcome env name :
  auth_method env = "token" →
  (env !! KEY = None →
     (factory env name).2 = inl (ValueError missing_key_msg))
  ∧ (∀ k, env !! KEY = Some k → k ≠ "" →
       init_raises (Some k) (env !! URL) None = None →
       (factory env name).2 =
         inr (Client (Some k) (env !! URL) None (Some name))).
Proof.
  intros Hm. split.
  - intros Hk. rewrite (token_branch _ _ Hm), Hk. reflexivity.
  - intros k Hk Hne Hinit. rewrite (token_branch _ _ Hm), Hk.
    rewrite (truthy_str_Some _ Hne). unfold new_client. rewrite Hinit.
    reflexivity.
Qed.


(** C6. With the selector "web", and a constructor that does not fail on
    (api_key=None, api_url, use_oauth=True), the factory returns that
    OAuth-flagged, keyless client with the server name attached; setting,
    changing or removing GITGUARDIAN_API_KEY changes nothing. *)
Theorem web_auth_succeeds env name :
  auth_method env = "web" →
  init_raises None (env !! URL) (Some true) = None →
  (factory env name).2 =
    inr (Client None (env !! URL) (Some true) (Some name))
  ∧ ∀ key, factory (partial_alter (λ _, key) KEY env) name = factory env name.
Proof.
  intros Hm Hinit. split.
  - rewrite (web_branch _ _ Hm). unfold new_client. rewrite Hinit.
    reflexivity.
  - intros key.
    assert (Hm' : auth_method (partial_alter (λ _, key) KEY env) = "web").
    { unfold auth_method. rewrite lookup_partial_alter_ne by discriminate.
      exact Hm. }
    unfold get_gitguardian_client. rewrite Hm', Hm.
    change ("web" =? "token") with false. cbv iota.
    rewrite lookup_partial_alter_ne by discriminate. reflexivity.
Qed.


(** C9. With the selector "token", a GITGUARDIAN_API_KEY set to the empty
    string gives exactly what an unset one gives, the ValueError about the
    missing key; and no client the factory returns was built from an empty
    key. *)
Theorem empty_key_as_absent env name :
  auth_method env = "token" → env !! KEY = Some "" →
  factory env name = factory (delete KEY env) name
  ∧ (factory env name).2 = inl (ValueError missing_key_msg)
  ∧ ∀ env' name' c, (factory env' name').2 = inr c → api_key c ≠ Some "".
Proof.
  intros Hm Hk. split; [|split].
  - unfold get_gitguardian_client.
    assert (Hm' : auth_method (delete KEY env) = "token").
    { unfold auth_method. rewrite lookup_delete_ne by discriminate.
      exact Hm. }
    rewrite Hm, Hm', Hk, lookup_delete_eq.
    rewrite lookup_delete_ne by discriminate. reflexivity.
  - rewrite (token_branch _ _ Hm), Hk. reflexivity.
  - intros env' name' c. unfold get_gitguardian_client, new_client.
    destruct (auth_method env' =? "token").
    + destruct (env' !! KEY) as [[|a k]|] eqn:Ek; simpl;
        try discriminate.
      destruct (init_raises _ _ _); simpl; [discriminate|].
      intros [= <-]. simpl. discriminate.
    + destruct (auth_method env' =? "web").
      * destruct (init_raises _ _ _); simpl; [discriminate|].
        intros [= <-]. simpl. discriminate.
      * simpl. discriminate.
Qed.

End Claims.

Lemma token_auth_outcome_witness :
  (get_gitguardian_client init_ok env_token (Some "secops")).2 =
    inr (Client (Some "ggtt-v-12345") None None (Some (Some "secops"))).
Proof.
  apply (token_auth_outcome init_ok env_token (Some "secops"));
    [vm_compute; reflexivity | vm_compute; reflexivity
    | discriminate | reflexivity].
Defined.

(** C1 as stated fails: the key variable is present, the constructor would
    succeed, and still the factory raises; and with a key that is not empty
    the factory fails when the constructor does. *)
Lemma token_auth_empty_key_present :
  auth_method env_empty_key = "token"
  ∧ env_empty_key !! KEY = Some ""
  ∧ (get_gitguardian_client init_ok env_empty_key (Some "secops")).2 =
      inl (ValueError missing_key_msg)
  ∧ auth_method env_token = "token"
  ∧ env_token !! KEY = Some "ggtt-v-12345"
  ∧ (get_gitguardian_client init_refuses env_token (Some "secops")).2 =
      inl (Exception "ConnectionError" "unreachable").
Proof. vm_compute. auto 7. Qed.


Lemma web_auth_succeeds_witness :
  (get_gitguardian_client init_ok env_token (Some "dev")).2 ≠
  (get_gitguardian_client init_ok (delete AUTH env_token) (Some "dev")).2
  ∧ (get_gitguardian_client init_ok (delete AUTH env_token) (Some "dev")).2 =
      inr (Client None None (Some true) (Some (Some "dev"))).
Proof.
  split; [vm_compute; discriminate|].
  refine (proj1 (web_auth_succeeds init_ok (delete AUTH env_token)
                   (Some "dev") _ _));
    vm_compute; reflexivity.
Defined.


Lemma empty_key_as_absent_witness :
  get_gitguardian_client init_ok env_empty_key None =
    get_gitguardian_client init_ok (delete KEY env_empty_key) None.
Proof.
  apply (empty_key_as_absent init_ok env_empty_key None);
    vm_compute; reflexivity.
Defined.

End UtilsProps.

(** ** The release scripts *)

Module ScriptProps.

Lemma exit_status_eta (main : M Z) (w : World) :
  exit_status main w = (status main w, history main w).
Proof. unfold status, history. destruct (exit_status main w); reflexivity. Qed.

Lemma existsb_eqb_elem_of (x : string) (l : list string) :
  existsb (String.eqb x) l = true ↔ x ∈ l.
Proof.
  rewrite existsb_exists. split.
  - intros (y & Hy & Heq). apply String.eqb_eq in Heq as ->.
    apply list_elem_of_In, Hy.
  - intros Hx. exists x. split; [apply list_elem_of_In, Hx|].
    apply String.eqb_refl.
Qed.


Lemma flag_given_false long short w :
  ¬ flag_given long short w →
  existsb (String.eqb long) (argv w) || existsb (String.eqb short) (argv w)
    = false.
Proof.
  intros H. apply orb_false_iff. split; apply not_true_is_false;
    rewrite existsb_eqb_elem_of; intros Hx; apply H; [left|right]; exact Hx.
Qed.

(** Case analysis on membership in a trace that is spelled out. *)
Ltac in_trace H :=
  repeat match type of H with
  | _ ∈ _ :: _ =>
      apply elem_of_cons in H; destruct H as [H|H]; [try discriminate H|]
  | _ ∈ [] => apply elem_of_nil in H; destruct H
  end.

Ltac bool_facts :=
  repeat match goal with
  | H : negb _ = true |- _ => apply negb_true_iff in H
  | H : negb _ = false |- _ => apply negb_false_iff in H
  | H : (_ =? _)%string = true |- _ => apply String.eqb_eq in H
  | H : (_ =? _)%string = false |- _ => apply String.eqb_neq in H
  | H : (_ =? _)%Z = true |- _ => apply Z.eqb_eq in H
  | H : (_ =? _)%Z = false |- _ => apply Z.eqb_neq in H
  end.

(** *** publish_to_pypi.py *)

Section Pypi.
Import PublishToPypi.





End Pypi.

Section Registry.
Import PublishToMcpRegistry.

Lemma validate_server_json_eq w t :
  validate_server_json w t =
    match manifest_verdict (json_load w t "server.json") with
    | Reject => (inr false, t)
    | Accept => (inr true, t)
    | Probe identifier =>
        let cmd := probe_cmd (py_str w identifier) in
        match subprocess_run w t cmd None with
        | inl _ => (inr false, t ++ [EvSpawnFailed cmd])
        | inr (rc, _, _) => (inr true, t ++ [EvRun cmd None rc])
        end
    end.
Proof.
  unfold validate_server_json, run_command, try_except, bind, load, lift,
    ask, ret, run.
  destruct (json_load w t "server.json") as [e|config] eqn:E; simpl.
  { destruct (exc_class e =? "JSONDecodeError"); reflexivity. }
  destruct config as [| | | |s|l|d]; simpl; try reflexivity.
  - repeat (destruct (is_substring _ s)); reflexivity.
  - repeat (destruct (existsb _ l)); reflexivity.
  - unfold has_field.
    destruct (lookup_item "name" d); simpl; [|reflexivity].
    destruct (lookup_item "description" d); simpl; [|reflexivity].
    destruct (lookup_item "version" d); simpl; [|reflexivity].
    destruct (lookup_item "packages" d) as [packages|]; simpl;
      [|reflexivity].
    destruct packages as [|[]|n|[]|[]|[|[] ?]|[]]; simpl;
      try reflexivity.
    + destruct (n =? 0)%Z; reflexivity.
    + destruct (is_str "pypi" _); [|reflexivity].
      destruct (subprocess_run _ _ _ _) as [e|[[? ?] ?]]; simpl;
        [destruct (exc_class e =? _)|]; reflexivity.
Qed.

Lemma wp_validate_server_json w t (Φ : result bool → trace → Prop) :
  Φ (inr false) t →
  Φ (inr true) t →
  (∀ s, Φ (inr false) (t ++ [EvSpawnFailed (probe_cmd s)])) →
  (∀ s rc, Φ (inr true) (t ++ [EvRun (probe_cmd s) None rc])) →
  wp validate_server_json w t Φ.
Proof.
  intros Hf Ht Hs Hr. unfold wp. rewrite validate_server_json_eq.
  destruct (manifest_verdict _); simpl; auto.
  destruct (subprocess_run _ _ _ _) as [e|[[rc out] err]]; simpl; auto.
Qed.






End Registry.

Example run_test_upload_fails :
  exit_status PublishToPypi.main world_test_upload_fails =
    (1%Z,
     [EvRun ["which"; "uv"] None 0; EvChdir; EvRmtree "dist";
      EvRun ["uv"; "build"] None 0; EvInput "Continue? [y/N]: " "y";
      EvRun ["uv"; "run"; "twine"; "upload"; "--repository"; "testpypi";
             "dist/*"]
        (Some (<["TWINE_PASSWORD" := "pypi-test-token"]>
                 (<["TWINE_USERNAME" := "__token__"]>
                    {["TEST_PYPI_TOKEN" := "pypi-test-token"]})))
        1]).
Proof. vm_compute. reflexivity. Qed.

Example run_login_fails :
  exit_status PublishToMcpRegistry.main world_login_fails =
    (0%Z,
     [EvChdir; EvRun which_cmd None 0; EvRun version_cmd None 0;
      EvRun (PublishToMcpRegistry.probe_cmd "gg-mcp") None 0;
      EvInput confirm_publish "y";
      EvInput "Continue with GitHub login? [y/N]: " "y";
      EvRun login_cmd None 1; EvRun publish_cmd None 0]).
Proof. vm_compute. reflexivity. Qed.

Example run_dry_run :
  exit_status PublishToMcpRegistry.main world_dry_run =
    (0%Z,
     [EvChdir; EvRun which_cmd None 0; EvRun version_cmd None 0;
      EvRun (PublishToMcpRegistry.probe_cmd "gg-mcp") None 0]).
Proof. vm_compute. reflexivity. Qed.

Example run_pypi_declined :
  exit_status PublishToPypi.main world_pypi_declined =
    (0%Z,
     [EvRun ["which"; "uv"] None 0; EvChdir; EvRmtree "dist";
      EvRun ["uv"; "build"] None 0; EvInput confirm_upload " N "]).
Proof. vm_compute. reflexivity. Qed.

Example run_pypi_build_fails :
  exit_status PublishToPypi.main world_pypi_build_fails =
    (1%Z,
     [EvRun ["which"; "uv"] None 0; EvChdir; EvRmtree "dist";
      EvRun ["uv"; "build"] None 2]).
Proof. vm_compute. reflexivity. Qed.

(** *** The claims about the scripts *)














End ScriptProps.

(** * Further properties of the sources *)

Module More.

Import Utils.

(** ** The client factory *)



Lemma log_api_url_debug (u : option string) :
  Forall (λ r, r.1 = DEBUG) (log_api_url u).
Proof. destruct u as [[|c r]|]; repeat constructor. Qed.

Section Factory.

Variable init_raises :
  option string → option string → option bool → option exception.

Abbreviation factory := (get_gitguardian_client init_raises).

(** X1. The selector defaults to "web": with GITGUARDIAN_AUTH_METHOD unset the
    factory writes the same log and has the same outcome as with the variable
    set to "web". *)
Theorem default_selector_is_web env name :
  env !! "GITGUARDIAN_AUTH_METHOD" = None →
  get_gitguardian_client init_raises env name =
    get_gitguardian_client init_raises
      (<["GITGUARDIAN_AUTH_METHOD" := "web"]> env) name.
Proof.
  intros Hunset. apply UtilsProps.factory_ext.
  - unfold auth_method. rewrite Hunset, lookup_insert_eq. reflexivity.
  - rewrite lookup_insert_ne by discriminate. reflexivity.
  - rewrite lookup_insert_ne by discriminate. reflexivity.
Qed.

(** X2. A failure is always logged, and only a failure: when the factory
    raises, the last record of its log has level ERROR or EXCEPTION; when it
    returns a client, every record has level DEBUG. *)
Theorem failure_is_logged env name :
  match (factory env name).2 with
  | inl _ => ∃ r, last (factory env name).1 = Some r ∧ reports_failure r
  | inr _ => Forall (λ r, r.1 = DEBUG) (factory env name).1
  end.
Proof.
  unfold get_gitguardian_client, new_client. cbv zeta.
  pose proof (log_api_url_debug (env !! "GITGUARDIAN_API_URL")) as Hurl.
  destruct (auth_method env =? "token"); [|destruct (auth_method env =? "web")];
    [destruct (truthy_str _);
       [destruct (init_raises _ _ _)|]
    |destruct (init_raises _ _ _)|]; cbn [fst snd].
  all: try (eexists; rewrite last_snoc; split;
            [reflexivity | first [left; reflexivity | right; reflexivity]]).
  all: rewrite !Forall_app; repeat split; try assumption; repeat constructor.
Qed.



End Factory.

Lemma default_selector_is_web_witness :
  get_gitguardian_client init_ok ∅ (Some "dev") =
    get_gitguardian_client init_ok
      (<["GITGUARDIAN_AUTH_METHOD" := "web"]> ∅) (Some "dev").
Proof.
  apply (default_selector_is_web init_ok ∅ (Some "dev")). reflexivity.
Defined.


(** ** publish_to_pypi.py *)

Import ScriptProps.

Ltac pypi_exec :=
  unfold PublishToPypi.main, PublishToPypi.check_prerequisites,
    PublishToPypi.clean_dist, PublishToPypi.build_package,
    PublishToPypi.upload_to_pypi, PublishToPypi.upload_with,
    PublishToPypi.run_command;
  repeat wp_step; cbn [app].

(** Membership of a spelled-out event in a spelled-out trace. *)
Ltac in_here :=
  solve [repeat first [apply list_elem_of_here | apply list_elem_of_further]].

Ltac of_script main w :=
  pattern (status main w), (history main w);
  apply (wp_exit_status w _ _ _ _ (exit_status_eta main w)).







Lemma EvInput_inj p a p' a' : EvInput p a = EvInput p' a' → p = p' ∧ a = a'.
Proof. intros [= -> ->]. auto. Qed.

Lemma token_prompt_inj (a b : bool) : token_prompt a = token_prompt b → a = b.
Proof. destruct a, b; try reflexivity; discriminate. Qed.

(** X17. The operator is asked for a token only when the token variable of
    the mode is unset or empty; an answer that is blank once stripped stops
    the script with status 1 before any upload is launched. *)
Theorem token_prompt_is_fallback w test answer :
  EvInput (token_prompt test) answer ∈ history PublishToPypi.main w →
  truthy_str (environ w !! token_var test) = false
  ∧ (strip answer = "" →
     status PublishToPypi.main w = 1%Z
     ∧ ∀ mode, ¬ invoked (PublishToPypi.upload_cmd mode)
                 (history PublishToPypi.main w)).
Proof.
  revert test answer. of_script PublishToPypi.main w. pypi_exec.
  all: intros test answer Hin; in_trace Hin.
  all: try (destruct test; discriminate Hin).
  all: apply EvInput_inj in Hin as (Hp & ->).
  all: apply token_prompt_inj in Hp; subst test; bool_facts.
  all: unfold token_var; split; [assumption|]; intros Hblank.
  all: try (split; [reflexivity|]; intros mode (ev & He & Hc);
            in_trace He; subst ev; destruct mode; discriminate Hc).
  all: match goal with
       | H : truthy_str (Some (strip _)) = true |- _ =>
           rewrite Hblank in H; discriminate H
       end.
Qed.

(** ** publish_to_mcp_registry.py *)

Ltac registry_exec :=
  unfold PublishToMcpRegistry.main, PublishToMcpRegistry.check_prerequisites,
    PublishToMcpRegistry.check_github_auth, PublishToMcpRegistry.proceed,
    PublishToMcpRegistry.login_github, PublishToMcpRegistry.publish_to_registry,
    PublishToMcpRegistry.run_command;
  repeat first
    [ apply wp_validate_server_json; [ | | intros ? | intros ? ?]
    | wp_step ];
  cbn [app].







Lemma lookup_item_app k (b a : list (string * value)) :
  lookup_item k (b ++ a) =
    match lookup_item k b with
    | Some v => Some v
    | None => lookup_item k a
    end.
Proof.
  unfold lookup_item. induction b as [|[k' v'] b IH]; simpl; [reflexivity|].
  destruct (k =? k'); [reflexivity | exact IH].
Qed.

Lemma forallb_pointwise {A} (f g : A → bool) (l : list A) :
  (∀ x, f x = g x) → forallb f l = forallb g l.
Proof.
  intros Hfg. induction l as [|x l IH]; simpl; [reflexivity|].
  rewrite Hfg, IH. reflexivity.
Qed.

Lemma manifest_verdict_first_entry before after entry others others' :
  manifest_verdict (inr (manifest_with before after entry others)) =
  manifest_verdict (inr (manifest_with before after entry others')).
Proof.
  unfold manifest_verdict, manifest_with.
  assert (Hfields : ∀ X Y field,
    has_field (before ++ ("packages", X) :: after) field =
    has_field (before ++ ("packages", Y) :: after) field).
  { intros X Y field. unfold has_field. rewrite !lookup_item_app.
    destruct (lookup_item field before); [reflexivity|].
    unfold lookup_item. simpl. destruct (field =? "packages"); reflexivity. }
  rewrite (forallb_pointwise _ _ _ (Hfields (VList (entry :: others))
                                       (VList (entry :: others')))).
  destruct (forallb _ _); [|reflexivity].
  rewrite !lookup_item_app.
  destruct (lookup_item "packages" before); [reflexivity|].
  unfold lookup_item. simpl. destruct entry; reflexivity.
Qed.

(** X13. Only the first entry of the packages list is looked at: two
    manifests that differ in the later entries alone get the same result,
    and the same probe. *)
Theorem later_packages_ignored w w' t before after entry others others' :
  json_load w t "server.json" =
    inr (manifest_with before after entry others) →
  json_load w' t "server.json" =
    inr (manifest_with before after entry others') →
  (∀ v, py_str w v = py_str w' v) →
  (∀ cmd, subprocess_run w t cmd None = subprocess_run w' t cmd None) →
  PublishToMcpRegistry.validate_server_json w t =
  PublishToMcpRegistry.validate_server_json w' t.
Proof.
  intros Hload Hload' Hstr Hrun.
  rewrite !validate_server_json_eq, Hload, Hload'.
  rewrite (manifest_verdict_first_entry before after entry others others').
  destruct (manifest_verdict _) as [| |identifier]; try reflexivity.
  cbv zeta. rewrite Hstr, Hrun. reflexivity.
Qed.

(** X14. The loop over the required fields stops at the first one the
    manifest object lacks: it reports a field that is missing while every
    field listed before it is present, and it reports none exactly when
    every field is present. *)
Theorem first_missing_is_first fields d :
  match PublishToMcpRegistry.first_missing fields (VDict d) with
  | inr None => ∀ field, field ∈ fields → is_Some (lookup_item field d)
  | inr (Some field) =>
      lookup_item field d = None
      ∧ ∃ earlier later,
          fields = earlier ++ field :: later
          ∧ ∀ f, f ∈ earlier → is_Some (lookup_item f d)
  | inl _ => False
  end.
Proof.
  induction fields as [|f rest IH]; simpl.
  - intros field Hin. apply elem_of_nil in Hin. destruct Hin.
  - destruct (decide (is_Some (lookup_item f d))) as [Hf|Hf].
    + rewrite bool_decide_eq_true_2 by assumption.
      destruct (PublishToMcpRegistry.first_missing rest (VDict d))
        as [e|[field|]]; [exact IH | |].
      * destruct IH as (Hnone & earlier & later & -> & Hall).
        split; [assumption|]. exists (f :: earlier), later.
        split; [reflexivity|]. intros g Hg.
        apply elem_of_cons in Hg as [->|Hg]; auto.
      * intros field Hin. apply elem_of_cons in Hin as [->|Hin]; auto.
    + rewrite bool_decide_eq_false_2 by assumption. split.
      * destruct (lookup_item f d); [exfalso; apply Hf; eauto | reflexivity].
      * exists [], rest. split; [reflexivity|].
        intros g Hg. apply elem_of_nil in Hg. destruct Hg.
Qed.

(** ** Both scripts *)

Ltac all_distinct :=
  repeat first
    [ apply NoDup_nil_2
    | apply NoDup_cons_2;
      [ rewrite ?not_elem_of_cons; repeat split;
        first [apply not_elem_of_nil | discriminate] | ] ].

(** X15. Nothing is retried: in a run of either script no command line is
    launched twice. *)
Theorem nothing_is_retried w :
  NoDup (launched (history PublishToPypi.main w))
  ∧ NoDup (launched (history PublishToMcpRegistry.main w)).
Proof.
  split.
  - of_script PublishToPypi.main w. pypi_exec.
    all: cbn [launched omap list_omap event_cmd]; unfold PublishToPypi.upload_cmd.
    all: all_distinct.
  - of_script PublishToMcpRegistry.main w. registry_exec.
    all: cbn [launched omap list_omap event_cmd]; all_distinct.
Qed.

(** X16. The only thing either script deletes is the dist directory, by
    publish_to_pypi, and only after [which uv] has returned 0;
    publish_to_mcp_registry deletes nothing. *)
Theorem only_dist_is_deleted w path :
  (EvRmtree path ∈ history PublishToPypi.main w →
   path = "dist" ∧ EvRun ["which"; "uv"] None 0 ∈ history PublishToPypi.main w)
  ∧ EvRmtree path ∉ history PublishToMcpRegistry.main w.
Proof.
  split.
  - revert path. of_script PublishToPypi.main w. pypi_exec.
    all: intros path Hin; in_trace Hin.
    all: injection Hin as ->; bool_facts; subst; split; [reflexivity | in_here].
  - revert path. of_script PublishToMcpRegistry.main w. registry_exec.
    all: intros path Hin; in_trace Hin.
Qed.

(** ** The theorems above at sample inputs *)





Lemma later_packages_ignored_witness :
  PublishToMcpRegistry.validate_server_json world_dry_run [] =
  PublishToMcpRegistry.validate_server_json world_two_packages [].
Proof.
  apply (later_packages_ignored world_dry_run world_two_packages []
           manifest_head [] package_entry [] [VStr "gg-mcp-extra"]);
    reflexivity.
Defined.

Lemma token_prompt_is_fallback_witness :
  truthy_str (environ world_blank_token !! token_var false) = false
  ∧ (strip "  " = "" →
     status PublishToPypi.main world_blank_token = 1%Z
     ∧ ∀ mode, ¬ invoked (PublishToPypi.upload_cmd mode)
                 (history PublishToPypi.main world_blank_token)).
Proof.
  apply (token_prompt_is_fallback world_blank_token false "  ").
  vm_compute. in_here.
Defined.

End More.
